(** * A shallow embedding of ivy's experimental activations, their jax backend
    and the jax frontend helpers.

    Sources embedded here:
    - ivy/functional/ivy/experimental/activations.py  (unified surface: the
      decorator stacks of each public op, and the body of [prelu]);
    - ivy/functional/backends/jax/experimental/activations.py (the jax kernels
      [logit], [relu6], [thresholded_relu], [batch_norm], [softplus],
      [leaky_relu]);
    - ivy/functional/frontends/jax/nn/non_linear_activations.py (the helpers
      [_type_conversion], [_type_conversion_64], [_batch_promotion],
      [_canonicalize_axis], [_reduction_dims] and the frontends
      [leaky_relu], [relu6], [sigmoid], [hard_sigmoid], [softplus]). *)

From Stdlib Require Import ZArith List String Bool Permutation Lia.
From Stdlib Require Import PrimFloat SpecFloat FloatAxioms.
From Stdlib Require Import Reals Lra.
Import ListNotations.
Open Scope string_scope.
Set Warnings "-inexact-float".

(* ------------------------------------------------------------------------- *)
(** ** Dtypes *)

(** The real dtypes ivy knows about, named as [ivy.as_ivy_dtype] names them. *)
Inductive dtype :=
| bool_ | int8 | int16 | int32 | int64
| uint8 | uint16 | uint32 | uint64
| bfloat16 | float16 | float32 | float64.

Definition dtype_name (d : dtype) : string :=
  match d with
  | bool_ => "bool" | int8 => "int8" | int16 => "int16" | int32 => "int32"
  | int64 => "int64" | uint8 => "uint8" | uint16 => "uint16"
  | uint32 => "uint32" | uint64 => "uint64" | bfloat16 => "bfloat16"
  | float16 => "float16" | float32 => "float32" | float64 => "float64"
  end.

Definition dtype_eqb (a b : dtype) : bool := String.eqb (dtype_name a) (dtype_name b).

(** Python's [sub in s] on strings. *)
Fixpoint str_contains (sub s : string) : bool :=
  String.prefix sub s ||
  match s with
  | EmptyString => false
  | String _ s' => str_contains sub s'
  end.

(** [ "float" in dtype ], the test the jax frontend helpers use. *)
Definition is_float_name (d : dtype) : bool := str_contains "float" (dtype_name d).

(** The integer (non-bool, non-float) dtypes. *)
Definition is_int_dtype (d : dtype) : bool :=
  match d with
  | int8 | int16 | int32 | int64 | uint8 | uint16 | uint32 | uint64 => true
  | _ => false
  end.

(** The value range of the integer dtypes (bool holds 0 and 1). *)
Definition in_range (d : dtype) (z : Z) : Prop :=
  match d with
  | bool_ => z = 0%Z \/ z = 1%Z
  | int8 => (-2^7 <= z < 2^7)%Z
  | int16 => (-2^15 <= z < 2^15)%Z
  | int32 => (-2^31 <= z < 2^31)%Z
  | int64 => (-2^63 <= z < 2^63)%Z
  | uint8 => (0 <= z < 2^8)%Z
  | uint16 => (0 <= z < 2^16)%Z
  | uint32 => (0 <= z < 2^32)%Z
  | uint64 => (0 <= z < 2^64)%Z
  | _ => True
  end.

(** Wrap-around of a C-style integer cast to dtype [d]. *)
Definition swrap (w : Z) (z : Z) : Z := (Z.modulo (z + 2^(w-1)) (2^w) - 2^(w-1))%Z.
Definition uwrap (w : Z) (z : Z) : Z := Z.modulo z (2^w).

Definition int_wrap (d : dtype) (z : Z) : Z :=
  match d with
  | bool_ => if Z.eqb z 0 then 0%Z else 1%Z
  | int8 => swrap 8 z | int16 => swrap 16 z | int32 => swrap 32 z | int64 => swrap 64 z
  | uint8 => uwrap 8 z | uint16 => uwrap 16 z | uint32 => uwrap 32 z | uint64 => uwrap 64 z
  | _ => z
  end.

(* ------------------------------------------------------------------------- *)
(** ** Floats and arrays *)

(** Elements of floating arrays are binary64 values (the kernel's primitive
    floats); the placement of NaN and of the infinities, which is what the claims
    below are about, is the same at every IEEE width. *)
Open Scope float_scope.

(** Integer to float conversion, rounding to nearest even. *)
Definition z_to_float (z : Z) : float :=
  FloatOps.SF2Prim (SpecFloat.binary_normalize FloatOps.prec FloatOps.emax z 0 false).

(** Float to integer conversion, truncating toward zero (NaN and infinities
    give 0). *)
Definition float_trunc (f : float) : Z :=
  match FloatOps.Prim2SF f with
  | S754_finite s m e =>
      let a := if Z.leb 0 e then (Zpos m * 2 ^ e)%Z else (Zpos m / 2 ^ (- e))%Z in
      if s then (- a)%Z else a
  | _ => 0%Z
  end.

(** [jnp.maximum] / [jnp.minimum] (lax.max / lax.min): NaN propagates. *)
Definition jnp_maximum (a b : float) : float :=
  if is_nan a || is_nan b then nan else if a <? b then b else a.
Definition jnp_minimum (a b : float) : float :=
  if is_nan a || is_nan b then nan else if b <? a then b else a.

(** [jnp.clip(x, lo, hi)] is [minimum(hi, maximum(lo, x))]. *)
Definition jnp_clip (x lo hi : float) : float := jnp_minimum hi (jnp_maximum lo x).

(** An array: its dtype and its flattened elements, integers for the bool and
    integer dtypes, floats for the floating dtypes. *)
Inductive arr :=
| IntArr (d : dtype) (zs : list Z)
| FloatArr (d : dtype) (fs : list float).

Definition arr_dtype (a : arr) : dtype :=
  match a with IntArr d _ | FloatArr d _ => d end.

(** Well-formed arrays: the element kind matches the dtype and integer elements
    lie in the dtype's range. *)
Definition wf_arr (a : arr) : Prop :=
  match a with
  | IntArr d zs => is_float_name d = false /\ Forall (in_range d) zs
  | FloatArr d _ => is_float_name d = true
  end.

Definition arr_floats (a : arr) : list float :=
  match a with IntArr _ zs => map z_to_float zs | FloatArr _ fs => fs end.

Definition arr_ints (a : arr) : list Z :=
  match a with IntArr _ zs => zs | FloatArr _ fs => map float_trunc fs end.

(** [ivy.astype(a, d)]. *)
Definition astype (a : arr) (d : dtype) : arr :=
  if is_float_name d then FloatArr d (arr_floats a)
  else match d, a with
       | bool_, FloatArr _ fs => IntArr bool_ (map (fun f => if f =? 0 then 0%Z else 1%Z) fs)
       | _, _ => IntArr d (map (int_wrap d) (arr_ints a))
       end.

(* ------------------------------------------------------------------------- *)
(** ** The jax backend (backends/jax/experimental/activations.py) *)

Module JaxBackend.

(** The element computation of [logit]; [log] is [jnp.log].
<<
    if eps is None:
        x = jnp.where(jnp.logical_or(x > 1, x < 0), jnp.nan, x)
    else:
        x = jnp.clip(x, eps, 1 - eps)
    return jnp.log(x / (1 - x))
>> *)
Definition logit_elem (log : float -> float) (eps : option float) (x : float) : float :=
  let x := match eps with
           | None => if (1 <? x) || (x <? 0) then nan else x
           | Some e => jnp_clip x e (1 - e)
           end in
  log (x / (1 - x)).

Definition logit (log : float -> float) (x : list float) (eps : option float) : list float :=
  map (logit_elem log eps) x.

(** [jax.nn.relu6(x)] is [jnp.minimum(jnp.maximum(x, 0), 6.)]. On an integer
    array jax takes the minimum in the default float dtype; every element that
    survives the minimum lies in [0, 6] and is exact there, so the elements are
    the integer minimum and maximum. *)
Definition jax_nn_relu6 (x : arr) : arr :=
  match x with
  | IntArr d zs => IntArr d (map (fun z => Z.min (Z.max z 0) 6) zs)
  | FloatArr d fs => FloatArr d (map (fun f => jnp_minimum (jnp_maximum f 0) 6) fs)
  end.

(** [return new_func(x).astype(x.dtype)]; the custom gradient does not change
    the forward values. *)
Definition relu6 (x : arr) : arr := astype (jax_nn_relu6 x) (arr_dtype x).

(** [jax.nn.leaky_relu(x, negative_slope=alpha)] is
    [jnp.where(x >= 0, x, negative_slope * x)]; integers are promoted to the
    default float dtype by the product. *)
Definition leaky_relu (x : arr) (alpha : float) : arr :=
  let f := fun v => if 0 <=? v then v else alpha * v in
  match x with
  | FloatArr d fs => FloatArr d (map f fs)
  | IntArr _ zs => FloatArr float32 (map f (map z_to_float zs))
  end.

End JaxBackend.

(** A [jnp.log] with the IEEE 754 special values (log NaN = NaN,
    log +inf = +inf, log +-0 = -inf, log of a negative = NaN), used to
    instantiate the [logit] results at concrete inputs; on the other finite
    values it is a placeholder. *)
Definition log_special_values (x : float) : float :=
  if is_nan x then nan
  else if x =? infinity then infinity
  else if x =? 0 then neg_infinity
  else if x <? 0 then nan
  else x.

Close Scope float_scope.

(* ------------------------------------------------------------------------- *)
(** ** The jax backend over real-valued elements: [batch_norm] and [softplus]

    These two kernels are stated over the reals: the claims about them concern
    which values feed which formula, not rounding. *)

Module JaxBackendR.
Open Scope R_scope.

(** An input of [batch_norm] of shape (N, C, S1, ..., Sk), as [x[n][c]] = the
    elements of the spatial block of batch [n], channel [c], flattened. The
    jax code moves axis 1 last, computes, and moves it back, so the layout of
    the spatial block is immaterial. *)
Definition tensor := list (list (list R)).

Definition num_channels (x : tensor) : nat :=
  match x with b :: _ => List.length b | [] => 0 end.

(** The elements [x[:, c, ...]] that a reduction over the axes
    [(0, *range(2, ndims))] collects for channel [c]. *)
Definition channel_values (x : tensor) (c : nat) : list R :=
  flat_map (fun b => nth c b []) x.

Definition rsum (l : list R) : R := fold_right Rplus 0 l.

(** [jnp.mean] and [jnp.var] (population variance, [ddof=0]). *)
Definition jnp_mean (l : list R) : R := rsum l / INR (List.length l).
Definition jnp_var (l : list R) : R :=
  jnp_mean (map (fun v => (v - jnp_mean l) ^ 2) l).

Definition chan_mean (x : tensor) : list R :=
  map (fun c => jnp_mean (channel_values x c)) (seq 0 (num_channels x)).
Definition chan_var (x : tensor) : list R :=
  map (fun c => jnp_var (channel_values x c)) (seq 0 (num_channels x)).

(** Broadcasting a vector against the channel axis: shape (1,) repeats, shape
    (C,) is per channel, any other length is a broadcast error. *)
Definition bcast (C : nat) (v : list R) : option (nat -> R) :=
  if Nat.eqb (List.length v) 1 then Some (fun _ => nth 0 v 0)
  else if Nat.eqb (List.length v) C then Some (fun c => nth c v 0)
  else None.

Fixpoint mapi_from {A B} (k : nat) (f : nat -> A -> B) (l : list A) : list B :=
  match l with
  | [] => []
  | a :: l' => f k a :: mapi_from (S k) f l'
  end.

(** [ret = x * inv + shift], channel by channel. *)
Definition apply_affine (inv shift : nat -> R) (x : tensor) : tensor :=
  map (mapi_from 0 (fun c row => map (fun v => v * inv c + shift c) row)) x.

(**
<<
    if training:
        dims = (0, *range(2, ndims))
        mean = jnp.mean(x, axis=dims)
        variance = jnp.var(x, axis=dims)
    x = jnp.transpose(x, (0, *range(2, ndims), 1))
    inv = 1.0 / jnp.sqrt(variance + eps)
    if scale is not None:
        inv *= scale
    ret = x * inv.astype(x.dtype) + (
        offset - mean * inv if offset is not None else -mean * inv
    ).astype(x.dtype)
    return jnp.transpose(ret, (0, ndims - 1, *range(1, ndims - 1)))
>>
    [None] is a broadcast error. *)
Definition batch_norm (x : tensor) (mean variance : list R)
    (scale offset : option (list R)) (training : bool) (eps : R) : option tensor :=
  let C := num_channels x in
  let mean := if training then chan_mean x else mean in
  let variance := if training then chan_var x else variance in
  match bcast C mean, bcast C variance with
  | Some m, Some v =>
      let inv0 := fun c => 1 / sqrt (v c + eps) in
      let inv := match scale with
                 | None => Some inv0
                 | Some s => match bcast C s with
                             | Some sc => Some (fun c => inv0 c * sc c)
                             | None => None
                             end
                 end in
      match inv with
      | None => None
      | Some inv =>
          let shift := match offset with
                       | Some o => match bcast C o with
                                   | Some oc => Some (fun c => oc c - m c * inv c)
                                   | None => None
                                   end
                       | None => Some (fun c => - m c * inv c)
                       end in
          match shift with
          | None => None
          | Some sh => Some (apply_affine inv sh x)
          end
      end
  | _, _ => None
  end.

(** A real-valued array with its dtype. *)
Record rarr := { rdtype : dtype; rdata : list R }.

(** Truncation toward zero. *)
Definition ztrunc (r : R) : Z :=
  if Rle_dec 0 r then Int_part r else (- Int_part (- r))%Z.

(** [astype(d)] on one element: floating dtypes keep the value, integer dtypes
    truncate and wrap. *)
Definition rcast (d : dtype) (r : R) : R :=
  if is_float_name d then r else IZR (int_wrap d (ztrunc r)).

Definition rastype (a : rarr) (d : dtype) : rarr :=
  {| rdtype := d; rdata := map (rcast d) (rdata a) |}.

(** Well-formed: elements of an integer-dtype array are integers in range. *)
Definition wf_rarr (a : rarr) : Prop :=
  is_float_name (rdtype a) = false ->
  Forall (fun r => exists z, r = IZR z /\ in_range (rdtype a) z) (rdata a).

(** [jax.nn.softplus(x)] is [jnp.logaddexp(x, 0)] = log(1 + exp x). *)
Definition jax_softplus (x : R) : R := ln (1 + exp x).

(** [jnp.where(c, a, b)] on flattened elements. *)
Definition jnp_where_gt (t : R) (cond_src a b : list R) : list R :=
  map (fun '(c, (u, w)) => if Rlt_dec t c then u else w) (combine cond_src (combine a b)).

(**
<<
    if beta is None:
        x_beta = x
        res = jax.nn.softplus(x_beta)
    else:
        x_beta = x * beta
        res = jax.nn.softplus(x_beta) / beta
    if threshold is not None:
        return jnp.where(x_beta > threshold, x, res).astype(x.dtype)
    return res.astype(x.dtype)
>> *)
Definition softplus (x : rarr) (beta threshold : option R) : rarr :=
  let x_beta := match beta with
                | None => rdata x
                | Some b => map (fun v => v * b) (rdata x)
                end in
  let res := match beta with
             | None => map jax_softplus x_beta
             | Some b => map (fun v => jax_softplus v / b) x_beta
             end in
  match threshold with
  | Some t => rastype {| rdtype := rdtype x; rdata := jnp_where_gt t x_beta (rdata x) res |} (rdtype x)
  | None => rastype {| rdtype := rdtype x; rdata := res |} (rdtype x)
  end.

(** [thresholded_relu]:
<<
    return jnp.where(x > threshold, x, 0).astype(x.dtype)
>> *)
Definition thresholded_relu (x : rarr) (threshold : R) : rarr :=
  rastype {| rdtype := rdtype x;
             rdata := map (fun v => if Rlt_dec threshold v then v else 0) (rdata x) |}
          (rdtype x).

End JaxBackendR.

(* ------------------------------------------------------------------------- *)
(** ** The unified surface (ivy/functional/ivy/experimental/activations.py) *)

Module Ivy.

(** The decorators of func_wrapper used in this file. *)
Inductive decorator :=
| handle_out_argument
| handle_nestable
| to_native_arrays_and_back
| handle_exceptions
| handle_array_like_without_promotion
| handle_array_function
| integer_arrays_to_float.

(** The public operations of the file. *)
Inductive op :=
| op_logit | op_prelu | op_thresholded_relu | op_relu6 | op_batch_norm
| op_sigmoid | op_hard_sigmoid | op_selu | op_hard_tanh | op_log_sigmoid
| op_softplus | op_softsign | op_silu | op_hard_silu | op_leaky_relu | op_elu | op_celu | op_glu.

(** Each op's decorator list, top to bottom as written above its [def], so
    outermost first. *)
Definition decorators (o : op) : list decorator :=
  match o with
  | op_logit | op_prelu | op_batch_norm | op_glu =>
      [handle_out_argument; handle_nestable; to_native_arrays_and_back;
       handle_exceptions; handle_array_like_without_promotion]
  | op_thresholded_relu =>
      [to_native_arrays_and_back; handle_out_argument; handle_nestable;
       handle_exceptions; handle_array_like_without_promotion]
  | op_relu6 | op_softplus | op_softsign | op_silu | op_hard_silu | op_leaky_relu | op_elu | op_celu =>
      [to_native_arrays_and_back; handle_out_argument; handle_nestable;
       handle_exceptions; handle_array_like_without_promotion; handle_array_function]
  | op_sigmoid | op_hard_sigmoid | op_selu | op_hard_tanh | op_log_sigmoid =>
      [integer_arrays_to_float; to_native_arrays_and_back; handle_out_argument;
       handle_nestable; handle_exceptions; handle_array_like_without_promotion;
       handle_array_function]
  end.

(** What a call does, in order: each decorator's wrapper takes control
    (outermost first, as Python's [@a @b def f] is [a(b(f))]), then the body
    [current_backend(x).<op>(...)] runs. *)
Inductive event := Enter (d : decorator) | Core (o : op).

Definition wrap (ds : list decorator) (o : op) : list event :=
  map Enter ds ++ [Core o].

Definition wrapped (o : op) : list event := wrap (decorators o) o.

(** Modelled from the spec: the effect of each decorator of func_wrapper (not
    among the sources) on the dtype of the array argument. The spec's stage 2
    says integer inputs are promoted to a floating dtype by
    [integer_arrays_to_float]; [handle_array_like_without_promotion] converts
    array-likes without promotion; the other decorators do not touch dtypes.
    The floating dtype is ivy's default float dtype, float32. *)
Definition dtype_effect (d : decorator) (t : dtype) : dtype :=
  match d with
  | integer_arrays_to_float => if is_int_dtype t then float32 else t
  | _ => t
  end.

(** The dtype the backend body receives for an input of dtype [t]. *)
Definition backend_input_dtype (o : op) (t : dtype) : dtype :=
  fold_left (fun t d => dtype_effect d t) (decorators o) t.

(** *** [prelu], at the level of shapes and exceptions *)

Definition shape := list nat.

(** numpy broadcasting on the reversed shapes. *)
Fixpoint broadcast_rev (a b : list nat) : option (list nat) :=
  match a, b with
  | [], _ => Some b
  | _, [] => Some a
  | x :: a', y :: b' =>
      match broadcast_rev a' b' with
      | None => None
      | Some r =>
          if Nat.eqb x y then Some (x :: r)
          else if Nat.eqb x 1 then Some (y :: r)
          else if Nat.eqb y 1 then Some (x :: r)
          else None
      end
  end.

Definition broadcast (a b : shape) : option shape :=
  option_map (@rev nat) (broadcast_rev (rev a) (rev b)).

(** The [slope] argument: a Python float, or an array of some shape. *)
Inductive slope := SScalar | SArr (s : shape).

(** Python exceptions met on this path. *)
Inductive exn :=
| BroadcastError      (** raised by [x * slope] / [ivy.where] on incompatible shapes *)
| IvyError (msg : string)
| TypeError (msg : string)
| AttributeError      (** [.shape] of a Python float *)
| ReshapeError.

Inductive result (A : Type) := Ok (a : A) | Raise (e : exn).
Arguments Ok {A} a.
Arguments Raise {A} e.

Definition bind {A B} (m : result A) (f : A -> result B) : result B :=
  match m with Ok a => f a | Raise e => Raise e end.
Notation "x <- m ;; k" := (bind m (fun x => k)) (at level 61, m at next level, right associativity).

(** The expression after [except]: Python evaluates it, and it must be an
    exception class (or a tuple of them). *)
Inductive except_expr := ExcClassIvyError | ExcInstance (e : exn).

(** Python's test whether a raised [e] is caught by an [except] clause: an
    instance in place of a class raises [TypeError]. *)
Definition except_matches (c : except_expr) (e : exn) : result bool :=
  match c with
  | ExcClassIvyError => Ok (match e with IvyError _ | BroadcastError => true | _ => false end)
  | ExcInstance _ =>
      Raise (TypeError "catching classes that do not inherit from BaseException is not allowed")
  end.

Definition slope_shape (sl : slope) : result shape :=
  match sl with SScalar => Raise AttributeError | SArr s => Ok s end.

(** [ivy.where(x > 0, x, x * slope)]: the result shape. *)
Definition where_mul (xs : shape) (ss : shape) : result shape :=
  match broadcast xs ss with
  | None => Raise BroadcastError
  | Some p => match broadcast xs p with None => Raise BroadcastError | Some r => Ok r end
  end.

Definition prod (s : shape) : nat := fold_right Nat.mul 1 s.

(** The body of the [except] clause, as written: [new_shape] receives [d] in
    both branches, so it is [x.shape]. *)
Definition prelu_fallback (xs : shape) (ss : shape) (e : exn) : result shape :=
  match ss with
  | [dim] =>
      let new_shape := map (fun d => if Nat.eqb d dim then d else d) xs in
      let n := List.length (filter (fun d => Nat.eqb d dim) xs) in
      if Nat.eqb n 1 then
        if Nat.eqb (prod new_shape) (prod ss) then where_mul xs new_shape
        else Raise ReshapeError
      else Raise e
  | _ => Raise e
  end.

(**
<<
    try:
        return ivy.where(x > 0, x, x * slope, out=out)
    except ivy.utils.exceptions.IvyError(
        f"The shape {slope.shape} is not Unidirectional Broadcastable\n"
        f"as per ONNX standards"
    ) as IvyException:
        <fallback>
        raise IvyException
>> *)
Definition prelu (xs : shape) (sl : slope) : result shape :=
  match sl with
  | SScalar => Ok xs
  | SArr ss =>
      match where_mul xs ss with
      | Ok r => Ok r
      | Raise e =>
          s <- slope_shape sl ;;
          caught <- except_matches
                      (ExcInstance (IvyError "is not Unidirectional Broadcastable")) e ;;
          if caught then prelu_fallback xs s e else Raise e
      end
  end.

(** The unified [leaky_relu] delegates to the backend. *)
Definition leaky_relu (x : arr) (alpha : float) : arr := JaxBackend.leaky_relu x alpha.

End Ivy.
(* ------------------------------------------------------------------------- *)
(** ** The jax frontend (frontends/jax/nn/non_linear_activations.py) *)

Module JaxFrontend.

(** A positional argument: a Python [float]/[int] (skipped by the loop) or an
    array, of which only [ivy.dtype(arg)] matters. *)
Inductive arg := PyNumber | Arr (d : dtype).

(** [promote_types]: the set built by the loop, as the list of dtypes added. *)
Fixpoint promote_types (args : list arg) : list dtype :=
  match args with
  | [] => []
  | PyNumber :: rest => promote_types rest
  | Arr d :: rest => d :: promote_types rest
  end.

(** ["d" in promote_types] *)
Definition mem (d : dtype) (s : list dtype) : bool := existsb (dtype_eqb d) s.

Definition _batch_promotion (args : list arg) (default_dtype : dtype) : dtype :=
  let s := promote_types args in
  if mem float64 s then float64
  else if mem float32 s then float32
  else if mem float16 s && mem bfloat16 s then float32
  else if mem float16 s then float16
  else if mem bfloat16 s then bfloat16
  else if mem int64 s || mem uint64 s then float64
  else if mem uint32 s && existsb (fun d => mem d s) [int8; int16; int32] then float64
  else default_dtype.

(** The frontend's default, [default_dtype="float64"]. *)
Definition promote (args : list arg) : dtype := _batch_promotion args float64.

(** [_type_conversion_64]:
<<
    x = ivy.asarray(x)
    dtype = ivy.as_ivy_dtype(x.dtype)
    if "float" in dtype:
        return ivy.astype(x, dtype)
    return ivy.astype(x, "float64")
>> *)
Definition _type_conversion_64 (x : arr) : arr :=
  let dtype := arr_dtype x in
  if is_float_name dtype then astype x dtype else astype x float64.

(** Python values passed to the frontend. *)
Inductive pyval := VArr (a : arr) | VFloat (f : float).

(** A parameter of a Python signature: its name and its default, if any. *)
Record param := { pname : string; pdefault : option pyval }.

(** [def leaky_relu(x, negative_slope=0.01)] *)
Definition leaky_relu_signature : list param :=
  [ {| pname := "x"; pdefault := None |};
    {| pname := "negative_slope"; pdefault := Some (VFloat 0.01%float) |} ].

Fixpoint kw_lookup (k : string) (kw : list (string * pyval)) : option pyval :=
  match kw with
  | [] => None
  | (k', v) :: kw' => if String.eqb k k' then Some v else kw_lookup k kw'
  end.

(** Python's binding of positional and keyword arguments to a signature of
    positional-or-keyword parameters; [None] is the [TypeError] Python raises
    (too many positional arguments, a parameter given twice, a missing
    argument without default). *)
Fixpoint bind_params (sig : list param) (pos : list pyval) (kw : list (string * pyval))
  : option (list pyval) :=
  match sig, pos with
  | [], [] => Some []
  | [], _ :: _ => None
  | p :: ps, v :: vs =>
      match kw_lookup (pname p) kw with
      | Some _ => None
      | None => option_map (cons v) (bind_params ps vs kw)
      end
  | p :: ps, [] =>
      match kw_lookup (pname p) kw with
      | Some v => option_map (cons v) (bind_params ps [] kw)
      | None =>
          match pdefault p with
          | Some v => option_map (cons v) (bind_params ps [] kw)
          | None => None
          end
      end
  end.

(** Unknown keyword names are a [TypeError] as well. *)
Definition bind_args (sig : list param) (pos : list pyval) (kw : list (string * pyval))
  : option (list pyval) :=
  if forallb (fun k => existsb (fun p => String.eqb (pname p) k) sig) (map fst kw)
  then bind_params sig pos kw else None.

(** The body of the frontend [leaky_relu]:
<<
    x = _type_conversion_64(x)
    return ivy.leaky_relu(x, alpha=negative_slope)
>> *)
Definition leaky_relu (x : arr) (negative_slope : float) : arr :=
  let x := _type_conversion_64 x in
  Ivy.leaky_relu x negative_slope.

(** A call of the frontend [leaky_relu] with positional arguments [pos] and keyword arguments [kw]. *)
Definition call_leaky_relu (pos : list pyval) (kw : list (string * pyval)) : option arr :=
  match bind_args leaky_relu_signature pos kw with
  | Some [VArr x; VFloat ns] => Some (leaky_relu x ns)
  | _ => None
  end.

(** [_type_conversion]:
<<
    x = ivy.asarray(x)
    dtype = ivy.as_ivy_dtype(x.dtype)
    if "float" not in dtype:
        if "64" in dtype[-2:]:
            dtype = "float64"
        else:
            dtype = "float32"
    return ivy.astype(x, dtype)
>>
    [_type_conversion_dtype] is the dtype this chooses. *)
Definition _type_conversion_dtype (d : dtype) : dtype :=
  let name := dtype_name d in
  if negb (str_contains "float" name) then
    if str_contains "64" (substring (String.length name - 2) 2 name) then float64
    else float32
  else d.

Definition _type_conversion (x : arr) : arr :=
  astype x (_type_conversion_dtype (arr_dtype x)).

(** [_canonicalize_axis]; [None] is the [IvyException] "axis ... is out of
    bounds for array of dimension ...".
<<
    if not -ndim <= axis < ndim:
        raise ivy.utils.exceptions.IvyException(...)
    if axis < 0:
        axis = axis + ndim
    return axis
>> *)
Definition _canonicalize_axis (axis ndim : Z) : option Z :=
  if negb ((- ndim <=? axis)%Z && (axis <? ndim)%Z) then None
  else Some (if (axis <? 0)%Z then (axis + ndim)%Z else axis).

(** An integer axis value and whether it is a Python [int]
    ([isinstance(x, int)]): a numpy integer such as [np.int64(0)] is not.
    [_canonicalize_axis] keeps that kind ([np.int64(-1) + 2] is a numpy
    integer again), and Python's [set] identifies equal values of either
    kind. *)
Record axis_val := { ax : Z; ax_is_int : bool }.

(** The [axis] argument of [_reduction_dims]: [None], one axis, or a tuple or
    list of axes. *)
Inductive axis_arg := AxisNone | AxisOne (a : axis_val) | AxisSeq (l : list axis_val).

(** [if not isinstance(axis, (tuple, list)): axis = (axis,)] *)
Definition axis_items (axis : axis_arg) : list axis_val :=
  match axis with AxisNone => [] | AxisOne a => [a] | AxisSeq l => l end.

(** [_canonicalize_axis] on an axis value, keeping its kind. *)
Definition canon_val (a : axis_val) (ndim : Z) : option axis_val :=
  option_map (fun c => {| ax := c; ax_is_int := ax_is_int a |}) (_canonicalize_axis (ax a) ndim).

(** [tuple(_canonicalize_axis(ax, ndims) for ax in axis)] *)
Fixpoint canon_all (l : list axis_val) (ndim : Z) : option (list axis_val) :=
  match l with
  | [] => Some []
  | a :: l' =>
      match canon_val a ndim with
      | None => None
      | Some c => option_map (cons c) (canon_all l' ndim)
      end
  end.

(** [_reduction_dims(a, axis)] for an array with [ndims] axes, returning the
    values of the two tuples; [None] is an exception (an axis out of bounds,
    or the [check_equal] on duplicates).
<<
    if axis is None:
        return (tuple(range(ndims)),) * 2
    if not isinstance(axis, (tuple, list)):
        axis = (axis,)
    canon_axis = tuple(_canonicalize_axis(ax, ndims) for ax in axis)
    ivy.utils.assertions.check_equal(len(canon_axis), len(set(canon_axis)), ...)
    canon_pos_axis = tuple(x for x in canon_axis if isinstance(x, int))
    if len(canon_pos_axis) != len(canon_axis):
        return canon_pos_axis, canon_axis
    else:
        return canon_axis, canon_axis
>> *)
Definition _reduction_dims (ndims : nat) (axis : axis_arg) : option (list Z * list Z) :=
  match axis with
  | AxisNone =>
      let r := map Z.of_nat (seq 0 ndims) in Some (r, r)
  | _ =>
      match canon_all (axis_items axis) (Z.of_nat ndims) with
      | None => None
      | Some canon_axis =>
          let vals := map ax canon_axis in
          if Nat.eqb (List.length vals) (List.length (nodup Z.eq_dec vals)) then
            let canon_pos_axis := filter ax_is_int canon_axis in
            if negb (Nat.eqb (List.length canon_pos_axis) (List.length canon_axis))
            then Some (map ax canon_pos_axis, vals)
            else Some (vals, vals)
          else None
      end
  end.

(** The frontend [relu6]:
<<
    res = ivy.relu6(x)
    return _type_conversion_64(res)
>> *)
Definition relu6 (x : arr) : arr := _type_conversion_64 (JaxBackend.relu6 x).

(** The frontends [sigmoid], [hard_sigmoid] and [softplus] share one shape,
    with the unified op passed as [ivy_op]:
<<
    x = _type_conversion(x)
    ret = ivy.sigmoid(x)
    return ivy.astype(ret, x.dtype)
>>
    ([softplus] writes [ivy.softplus(x).astype(x.dtype)]). *)
Definition convert_apply_cast (ivy_op : arr -> arr) (x : arr) : arr :=
  let x := _type_conversion x in
  astype (ivy_op x) (arr_dtype x).

Definition sigmoid (ivy_sigmoid : arr -> arr) (x : arr) : arr := convert_apply_cast ivy_sigmoid x.
Definition hard_sigmoid (ivy_hard_sigmoid : arr -> arr) (x : arr) : arr :=
  convert_apply_cast ivy_hard_sigmoid x.
Definition softplus (ivy_softplus : arr -> arr) (x : arr) : arr := convert_apply_cast ivy_softplus x.

End JaxFrontend.

(* ========================================================================= *)
(** * Theorems *)

(** ** Dtype-promotion of the jax frontend *)

Lemma dtype_eqb_spec a b : dtype_eqb a b = true <-> a = b.
Proof.
  split; [|intros ->; apply String.eqb_refl].
  destruct a, b; cbv; congruence.
Qed.

Lemma mem_In d s : JaxFrontend.mem d s = true <-> In d s.
Proof.
  unfold JaxFrontend.mem; rewrite existsb_exists; split.
  - intros [d' [Hin Heq]]; apply dtype_eqb_spec in Heq; subst; exact Hin.
  - intros Hin; exists d; split; [exact Hin | apply dtype_eqb_spec; reflexivity].
Qed.

Lemma promote_types_perm args args' :
  Permutation args args' ->
  Permutation (JaxFrontend.promote_types args) (JaxFrontend.promote_types args').
Proof.
  induction 1 as [| a l l' _ IH | a b l | l l' l'' _ IH1 _ IH2].
  - constructor.
  - destruct a; simpl; [exact IH | constructor; exact IH].
  - destruct a, b; simpl; try constructor; try apply Permutation_refl.
  - eapply Permutation_trans; eauto.
Qed.

Lemma mem_perm d s s' : Permutation s s' -> JaxFrontend.mem d s = JaxFrontend.mem d s'.
Proof.
  intros Hp.
  destruct (JaxFrontend.mem d s) eqn:E1, (JaxFrontend.mem d s') eqn:E2; auto.
  - apply mem_In in E1. apply (Permutation_in _ Hp), mem_In in E1. congruence.
  - apply mem_In in E2. apply (Permutation_in _ (Permutation_sym Hp)), mem_In in E2.
    congruence.
Qed.

Lemma In_promote_types d args :
  In (JaxFrontend.Arr d) args <-> In d (JaxFrontend.promote_types args).
Proof.
  induction args as [|[|d'] rest IH]; simpl.
  - tauto.
  - rewrite <- IH; split; [intros [H|H]; [discriminate|exact H] | auto].
  - rewrite <- IH; split; intros [H|H]; auto; left; congruence.
Qed.

Lemma batch_promotion_perm args args' dflt :
  Permutation args args' ->
  JaxFrontend._batch_promotion args dflt = JaxFrontend._batch_promotion args' dflt.
Proof.
  intros Hp.
  assert (H : forall d, JaxFrontend.mem d (JaxFrontend.promote_types args)
                      = JaxFrontend.mem d (JaxFrontend.promote_types args'))
    by (intro; apply mem_perm, promote_types_perm, Hp).
  unfold JaxFrontend._batch_promotion; cbn [existsb].
  rewrite !H; reflexivity.
Qed.

Lemma batch_promotion_float64 args dflt :
  In (JaxFrontend.Arr float64) args -> JaxFrontend._batch_promotion args dflt = float64.
Proof.
  intros Hin; apply In_promote_types, mem_In in Hin.
  unfold JaxFrontend._batch_promotion; rewrite Hin; reflexivity.
Qed.

Lemma batch_promotion_wide_int args dflt :
  (In (JaxFrontend.Arr int64) args \/ In (JaxFrontend.Arr uint64) args) ->
  (forall d, In (JaxFrontend.Arr d) args -> is_float_name d = false) ->
  JaxFrontend._batch_promotion args dflt = float64.
Proof.
  intros Hw Hnf.
  assert (Hno : forall d, is_float_name d = true ->
                JaxFrontend.mem d (JaxFrontend.promote_types args) = false).
  { intros d Hd; destruct (JaxFrontend.mem d _) eqn:E; auto.
    apply mem_In, In_promote_types, Hnf in E; congruence. }
  unfold JaxFrontend._batch_promotion.
  rewrite (Hno float64), (Hno float32), (Hno float16), (Hno bfloat16) by reflexivity.
  destruct Hw as [Hw|Hw]; apply In_promote_types, mem_In in Hw; rewrite Hw;
    [reflexivity | rewrite orb_true_r; reflexivity].
Qed.

(** C1 (counterexample). Promotion does not follow the order
    bool < unsigned < signed < float16/bfloat16 < float32 < float64 with any
    int64 forcing float64: [promote(float32, int64)] is float32, not float64,
    and [promote(int8, int16)] is the default float64, not int16. *)
Lemma promote_float32_int64_not_float64 :
  JaxFrontend.promote [JaxFrontend.Arr float32; JaxFrontend.Arr int64] = float32 /\
  JaxFrontend.promote [JaxFrontend.Arr float32; JaxFrontend.Arr int64] <> float64 /\
  JaxFrontend.promote [JaxFrontend.Arr int8; JaxFrontend.Arr int16] = float64.
Proof. split; [reflexivity | split; [discriminate | reflexivity]]. Qed.

Lemma mem_promote_true d args :
  In (JaxFrontend.Arr d) args -> JaxFrontend.mem d (JaxFrontend.promote_types args) = true.
Proof. intros H; apply mem_In, In_promote_types, H. Qed.

Lemma mem_promote_false d args :
  ~ In (JaxFrontend.Arr d) args -> JaxFrontend.mem d (JaxFrontend.promote_types args) = false.
Proof.
  intros H; destruct (JaxFrontend.mem d _) eqn:E; [|reflexivity].
  apply mem_In, In_promote_types in E; contradiction.
Qed.

Local Ltac bp_mem :=
  repeat match goal with
  | H : In (JaxFrontend.Arr ?d) ?args |- context [JaxFrontend.mem ?d (JaxFrontend.promote_types ?args)] =>
      rewrite (mem_promote_true d args H)
  | H : ~ In (JaxFrontend.Arr ?d) ?args |- context [JaxFrontend.mem ?d (JaxFrontend.promote_types ?args)] =>
      rewrite (mem_promote_false d args H)
  end.

(** C1 (amended). [_batch_promotion] depends only on the set of dtypes of its
    array arguments (order, repetitions and Python numbers do not matter), so
    it is commutative. It returns float64 if an argument is float64; else
    float32 if one is float32 or both float16 and bfloat16 occur; else
    float16; else bfloat16; else float64 if one is int64 or uint64; else
    float64 if uint32 occurs with int8, int16 or int32; else the default
    dtype. So [promote(float32, int64)] is float32 (floats are tested before
    int64/uint64), and with the default float64 every bool/integer-only
    combination gives float64. *)
Theorem batch_promotion_commutative_float_first :
  (forall args args' dflt,
     (forall d, In (JaxFrontend.Arr d) args <-> In (JaxFrontend.Arr d) args') ->
     JaxFrontend._batch_promotion args dflt = JaxFrontend._batch_promotion args' dflt) /\
  (forall args args' dflt, Permutation args args' ->
     JaxFrontend._batch_promotion args dflt = JaxFrontend._batch_promotion args' dflt) /\
  (forall d1 d2 dflt,
     JaxFrontend._batch_promotion [JaxFrontend.Arr d1; JaxFrontend.Arr d2] dflt =
     JaxFrontend._batch_promotion [JaxFrontend.Arr d2; JaxFrontend.Arr d1] dflt) /\
  (forall args dflt, In (JaxFrontend.Arr float64) args ->
     JaxFrontend._batch_promotion args dflt = float64) /\
  (forall args dflt, ~ In (JaxFrontend.Arr float64) args ->
     (In (JaxFrontend.Arr float32) args \/
      (In (JaxFrontend.Arr float16) args /\ In (JaxFrontend.Arr bfloat16) args)) ->
     JaxFrontend._batch_promotion args dflt = float32) /\
  (forall args dflt, ~ In (JaxFrontend.Arr float64) args -> ~ In (JaxFrontend.Arr float32) args ->
     In (JaxFrontend.Arr float16) args -> ~ In (JaxFrontend.Arr bfloat16) args ->
     JaxFrontend._batch_promotion args dflt = float16) /\
  (forall args dflt, ~ In (JaxFrontend.Arr float64) args -> ~ In (JaxFrontend.Arr float32) args ->
     ~ In (JaxFrontend.Arr float16) args -> In (JaxFrontend.Arr bfloat16) args ->
     JaxFrontend._batch_promotion args dflt = bfloat16) /\
  (forall args dflt,
     (forall d, In d [float64; float32; float16; bfloat16] -> ~ In (JaxFrontend.Arr d) args) ->
     (In (JaxFrontend.Arr int64) args \/ In (JaxFrontend.Arr uint64) args) ->
     JaxFrontend._batch_promotion args dflt = float64) /\
  (forall args dflt,
     (forall d, In d [float64; float32; float16; bfloat16; int64; uint64] ->
                ~ In (JaxFrontend.Arr d) args) ->
     In (JaxFrontend.Arr uint32) args ->
     (In (JaxFrontend.Arr int8) args \/ In (JaxFrontend.Arr int16) args \/
      In (JaxFrontend.Arr int32) args) ->
     JaxFrontend._batch_promotion args dflt = float64) /\
  (forall args dflt,
     (forall d, In d [float64; float32; float16; bfloat16; int64; uint64] ->
                ~ In (JaxFrontend.Arr d) args) ->
     (~ In (JaxFrontend.Arr uint32) args \/
      (forall d, In d [int8; int16; int32] -> ~ In (JaxFrontend.Arr d) args)) ->
     JaxFrontend._batch_promotion args dflt = dflt) /\
  (forall args, (forall d, In (JaxFrontend.Arr d) args -> is_float_name d = false) ->
     JaxFrontend.promote args = float64) /\
  JaxFrontend.promote [JaxFrontend.Arr float32; JaxFrontend.Arr int64] = float32.
Proof.
  split.
  { intros args args' dflt Hs.
    assert (H : forall d, JaxFrontend.mem d (JaxFrontend.promote_types args)
                        = JaxFrontend.mem d (JaxFrontend.promote_types args')).
    { intros d.
      destruct (JaxFrontend.mem d (JaxFrontend.promote_types args)) eqn:E1,
               (JaxFrontend.mem d (JaxFrontend.promote_types args')) eqn:E2; auto.
      - apply mem_In, In_promote_types, Hs, In_promote_types, mem_In in E1; congruence.
      - apply mem_In, In_promote_types, Hs, In_promote_types, mem_In in E2; congruence. }
    unfold JaxFrontend._batch_promotion; cbn [existsb]; rewrite !H; reflexivity. }
  split; [exact batch_promotion_perm|].
  split; [intros; apply batch_promotion_perm, perm_swap|].
  split; [exact batch_promotion_float64|].
  split.
  { intros args dflt H64 [H32 | [H16 Hb16]]; unfold JaxFrontend._batch_promotion; bp_mem;
      [reflexivity|].
    destruct (JaxFrontend.mem float32 _); reflexivity. }
  split; [intros; unfold JaxFrontend._batch_promotion; bp_mem; reflexivity|].
  split; [intros; unfold JaxFrontend._batch_promotion; bp_mem; reflexivity|].
  split.
  { intros args dflt Hf Hw.
    assert (Hno := fun d Hd => mem_promote_false d args (Hf d Hd)).
    unfold JaxFrontend._batch_promotion.
    rewrite (Hno float64), (Hno float32), (Hno float16), (Hno bfloat16) by (cbn; tauto).
    destruct Hw as [Hw|Hw]; bp_mem; [reflexivity | rewrite orb_true_r; reflexivity]. }
  split.
  { intros args dflt Hf Hu Hi.
    assert (Hno := fun d Hd => mem_promote_false d args (Hf d Hd)).
    unfold JaxFrontend._batch_promotion.
    rewrite (Hno float64), (Hno float32), (Hno float16), (Hno bfloat16), (Hno int64), (Hno uint64)
      by (cbn; tauto).
    bp_mem; cbn [existsb].
    destruct Hi as [Hi|[Hi|Hi]]; bp_mem; rewrite ?orb_true_r; reflexivity. }
  split.
  { intros args dflt Hf Hu.
    assert (Hno := fun d Hd => mem_promote_false d args (Hf d Hd)).
    unfold JaxFrontend._batch_promotion.
    rewrite (Hno float64), (Hno float32), (Hno float16), (Hno bfloat16), (Hno int64), (Hno uint64)
      by (cbn; tauto).
    cbn [existsb andb orb].
    destruct Hu as [Hu|Hu]; [bp_mem; reflexivity|].
    rewrite (mem_promote_false int8 args), (mem_promote_false int16 args),
      (mem_promote_false int32 args) by (apply Hu; cbn; tauto).
    destruct (JaxFrontend.mem uint32 _); reflexivity. }
  split.
  { intros args Hnf.
    assert (Hno : forall d, is_float_name d = true ->
                  JaxFrontend.mem d (JaxFrontend.promote_types args) = false).
    { intros d Hd; apply mem_promote_false; intros Hi; apply Hnf in Hi; congruence. }
    unfold JaxFrontend.promote, JaxFrontend._batch_promotion.
    rewrite (Hno float64), (Hno float32), (Hno float16), (Hno bfloat16) by reflexivity.
    cbn [andb]; destruct (_ || _); [reflexivity|]; destruct (_ && _); reflexivity. }
  reflexivity.
Qed.

(** ** [logit] of the jax backend *)

Section FloatFacts.
Open Scope float_scope.

Lemma Prim2SF_one : FloatOps.Prim2SF 1 = S754_finite false 4503599627370496 (-52).
Proof. vm_compute; reflexivity. Qed.

Lemma Prim2SF_zero : FloatOps.Prim2SF 0 = S754_zero false.
Proof. vm_compute; reflexivity. Qed.

Lemma Prim2SF_neg_zero : FloatOps.Prim2SF neg_zero = S754_zero true.
Proof. vm_compute; reflexivity. Qed.

Lemma float_eqb_one x : (x =? 1) = true -> x = 1.
Proof.
  rewrite FloatAxioms.eqb_spec, Prim2SF_one; intros H.
  apply FloatAxioms.Prim2SF_inj; rewrite Prim2SF_one.
  destruct (FloatOps.Prim2SF x) as [b|b| |b m e]; cbv [SFeqb SFcompare] in H;
    try discriminate; [destruct b; discriminate|].
  destruct b; [discriminate|].
  destruct (Z.compare e (-52)) eqn:Ee; try discriminate.
  apply Z.compare_eq in Ee; subst e.
  destruct (Pos.compare_cont Eq m 4503599627370496) eqn:Em; try discriminate.
  apply Pos.compare_eq_iff in Em; subst m; reflexivity.
Qed.

Lemma float_eqb_zero x : (x =? 0) = true -> x = 0 \/ x = neg_zero.
Proof.
  rewrite FloatAxioms.eqb_spec, Prim2SF_zero; intros H.
  destruct (FloatOps.Prim2SF x) as [b|b| |b m e] eqn:E; cbv [SFeqb SFcompare] in H;
    try discriminate; try (destruct b; discriminate).
  destruct b; [right; rewrite <- Prim2SF_neg_zero in E | left; rewrite <- Prim2SF_zero in E];
    apply FloatAxioms.Prim2SF_inj; exact E.
Qed.

Lemma float_leb_refl a : is_nan a = false -> (a <=? a) = true.
Proof.
  unfold is_nan; rewrite FloatAxioms.eqb_spec, FloatAxioms.leb_spec.
  destruct (FloatOps.Prim2SF a) as [b|b| |b m e]; try discriminate; intros _;
    unfold SFleb, SFcompare; try (destruct b; reflexivity); try reflexivity.
  destruct b; rewrite Z.compare_refl, Pos.compare_cont_refl; reflexivity.
Qed.

Lemma float_ltb_leb a b : (a <? b) = true -> (a <=? b) = true.
Proof.
  rewrite FloatAxioms.ltb_spec, FloatAxioms.leb_spec; unfold SFltb, SFleb.
  destruct (SFcompare _ _) as [[]|]; congruence.
Qed.

Ltac sf_cases :=
  cbv [SFeqb SFleb SFltb SFcompare] in *;
  repeat match goal with b : bool |- _ => destruct b end;
  rewrite ?Z.compare_refl, ?Pos.compare_cont_refl in *;
  try reflexivity; try discriminate.

Lemma float_leb_not_nan_l a b : (a <=? b) = true -> is_nan a = false.
Proof.
  unfold is_nan; rewrite FloatAxioms.eqb_spec, FloatAxioms.leb_spec.
  destruct (FloatOps.Prim2SF a), (FloatOps.Prim2SF b); intros H; sf_cases.
Qed.

Lemma float_leb_not_nan_r a b : (a <=? b) = true -> is_nan b = false.
Proof.
  unfold is_nan; rewrite FloatAxioms.eqb_spec, FloatAxioms.leb_spec.
  destruct (FloatOps.Prim2SF a), (FloatOps.Prim2SF b); intros H; sf_cases.
Qed.

End FloatFacts.

Section LogitFacts.
Open Scope float_scope.

Lemma jnp_clip_bounds x lo hi :
  is_nan x = false -> (lo <=? hi) = true ->
  (lo <=? jnp_clip x lo hi) = true /\ (jnp_clip x lo hi <=? hi) = true.
Proof.
  intros Hx Hlh.
  pose proof (float_leb_not_nan_l _ _ Hlh) as Hlo.
  pose proof (float_leb_not_nan_r _ _ Hlh) as Hhi.
  unfold jnp_clip, jnp_maximum, jnp_minimum; rewrite Hlo, Hx; simpl.
  destruct (lo <? x) eqn:Elx.
  - rewrite Hhi, Hx; simpl.
    destruct (x <? hi) eqn:Exh; split.
    + apply float_ltb_leb; exact Elx.
    + apply float_ltb_leb; exact Exh.
    + exact Hlh.
    + apply float_leb_refl; exact Hhi.
  - rewrite Hhi, Hlo; simpl.
    destruct (lo <? hi) eqn:Elh; split.
    + apply float_leb_refl; exact Hlo.
    + apply float_ltb_leb; exact Elh.
    + exact Hlh.
    + apply float_leb_refl; exact Hhi.
Qed.

Lemma logit_elem_none_nan log x :
  (forall q, is_nan q = true -> is_nan (log q) = true) ->
  ((1 <? x) || (x <? 0)) = true -> is_nan (JaxBackend.logit_elem log None x) = true.
Proof.
  intros Hlog Hout; unfold JaxBackend.logit_elem; rewrite Hout.
  apply Hlog; vm_compute; reflexivity.
Qed.

End LogitFacts.

(** C2. [logit] of the jax backend, for every array [xs] and every [jnp.log]
    with the IEEE 754 special values: with [eps=None] each element is NaN where
    [x < 0] or [x > 1], +inf where [x == 1], -inf where [x == 0] (either zero),
    and [log(x / (1 - x))] at every other element (which covers x == 0 and
    x == 1, where that expression is -inf and +inf); with [eps=e] (e <= 1 - e)
    each element is [log(c / (1 - c))] for [c] the element clamped to
    [[e, 1 - e]]; and [logit([1, 0, 0.9], eps=None)] is
    [[+inf, -inf, log(0.9 / (1 - 0.9))]], whose last argument is
    9.0000000000000018 (log 9 = 2.19722...). *)
Theorem logit_nan_inf_placement (log : float -> float)
  (log_nan : forall q, is_nan q = true -> is_nan (log q) = true)
  (log_inf : log infinity = infinity)
  (log_zero : log 0%float = neg_infinity)
  (log_neg_zero : log neg_zero = neg_infinity) :
  (forall xs,
     Forall2 (fun x y =>
       (((x <? 0) || (1 <? x))%float = true -> is_nan y = true) /\
       ((x =? 1)%float = true -> y = infinity) /\
       ((x =? 0)%float = true -> y = neg_infinity) /\
       (((x <? 0) || (1 <? x))%float = false -> y = log (x / (1 - x))%float))
       xs (JaxBackend.logit log xs None)) /\
  (forall e xs, (e <=? 1 - e)%float = true ->
     Forall2 (fun x y =>
       let c := jnp_clip x e (1 - e)%float in
       y = log (c / (1 - c))%float /\
       (is_nan x = false -> (e <=? c)%float = true /\ (c <=? 1 - e)%float = true))
       xs (JaxBackend.logit log xs (Some e))) /\
  JaxBackend.logit log [1; 0; 0.9]%float None = [infinity; neg_infinity; log (0.9 / (1 - 0.9))%float] /\
  (0.9 / (1 - 0.9))%float = 9.0000000000000018%float.
Proof.
  split; [|split; [|split]].
  - intros xs; unfold JaxBackend.logit; induction xs as [|x xs IH]; constructor; [|exact IH].
    split; [|split; [|split]].
    + intros Hout; apply logit_elem_none_nan; [exact log_nan|].
      rewrite orb_comm; exact Hout.
    + intros H1; apply float_eqb_one in H1; subst x.
      unfold JaxBackend.logit_elem; vm_compute (_ || _).
      rewrite <- log_inf; f_equal; vm_compute; reflexivity.
    + intros H0; apply float_eqb_zero in H0; destruct H0; subst x;
        unfold JaxBackend.logit_elem; vm_compute (_ || _).
      * rewrite <- log_zero; f_equal; vm_compute; reflexivity.
      * rewrite <- log_neg_zero; f_equal; vm_compute; reflexivity.
    + intros Hin; unfold JaxBackend.logit_elem; rewrite orb_comm, Hin; reflexivity.
  - intros e xs He; unfold JaxBackend.logit; induction xs as [|x xs IH]; constructor; [|exact IH].
    split; [reflexivity|].
    intros Hx; apply jnp_clip_bounds; assumption.
  - unfold JaxBackend.logit; cbn [map].
    f_equal; [|f_equal].
    + unfold JaxBackend.logit_elem; vm_compute (_ || _).
      rewrite <- log_inf; f_equal; vm_compute; reflexivity.
    + unfold JaxBackend.logit_elem; vm_compute (_ || _).
      rewrite <- log_zero; f_equal; vm_compute; reflexivity.
  - vm_compute; reflexivity.
Qed.

Lemma log_special_values_nan q :
  is_nan q = true -> is_nan (log_special_values q) = true.
Proof. intros H; unfold log_special_values; rewrite H; vm_compute; reflexivity. Qed.

(** An instance of C2: with a [jnp.log] having the IEEE special values,
    [logit([1, 0, 0.9])] is [[+inf, -inf, log(9.0000000000000018)]]. *)
Lemma logit_nan_inf_placement_witness :
  log_special_values infinity = infinity /\
  log_special_values 0%float = neg_infinity /\
  log_special_values neg_zero = neg_infinity /\
  JaxBackend.logit log_special_values [1; 0; 0.9]%float None =
    [infinity; neg_infinity; log_special_values 9.0000000000000018%float].
Proof.
  assert (Hi : log_special_values infinity = infinity) by (vm_compute; reflexivity).
  assert (H0 : log_special_values 0%float = neg_infinity) by (vm_compute; reflexivity).
  assert (Hn : log_special_values neg_zero = neg_infinity) by (vm_compute; reflexivity).
  destruct (logit_nan_inf_placement log_special_values log_special_values_nan Hi H0 Hn)
    as (_ & _ & Hex & Hq).
  split; [exact Hi|]; split; [exact H0|]; split; [exact Hn|].
  rewrite Hex, Hq; reflexivity.
Defined.

(** ** [relu6] of the jax backend *)

Lemma int_wrap_in_range d z : in_range d z -> int_wrap d z = z.
Proof.
  destruct d; cbn [in_range int_wrap]; unfold swrap, uwrap; intros H;
    try reflexivity;
    try (destruct H as [-> | ->]; reflexivity);
    rewrite Z.mod_small by (cbn in *; lia); cbn in *; lia.
Qed.

Lemma in_range_relu6 d z : in_range d z -> in_range d (Z.min (Z.max z 0) 6).
Proof.
  destruct d; cbn [in_range]; intros H; try exact I;
    try (destruct H as [-> | ->]; [left | right]; reflexivity);
    cbn in *; lia.
Qed.

Lemma astype_int_same d zs :
  is_float_name d = false ->
  astype (IntArr d zs) d = IntArr d (map (int_wrap d) zs).
Proof. intros Hd; unfold astype; rewrite Hd; destruct d; reflexivity. Qed.

Lemma astype_float_same d fs :
  is_float_name d = true -> astype (FloatArr d fs) d = FloatArr d fs.
Proof. intros Hd; unfold astype; rewrite Hd; reflexivity. Qed.

(** C7. [relu6] keeps the dtype of its input and maps each element [x] to
    [min(max(x, 0), 6)] ([jnp.minimum]/[jnp.maximum] on floats); on the int32
    array [-1 .. 7] it returns exactly [[0, 0, 1, 2, 3, 4, 5, 6, 6]]. *)
Theorem relu6_clips_to_0_6 (x : arr) (Hwf : wf_arr x) :
  arr_dtype (JaxBackend.relu6 x) = arr_dtype x /\
  JaxBackend.relu6 x =
    match x with
    | IntArr d zs => IntArr d (map (fun z => Z.min (Z.max z 0) 6) zs)
    | FloatArr d fs =>
        FloatArr d (map (fun f => jnp_minimum (jnp_maximum f 0) 6) fs)
    end /\
  JaxBackend.relu6 (IntArr int32 [-1; 0; 1; 2; 3; 4; 5; 6; 7]%Z) =
    IntArr int32 [0; 0; 1; 2; 3; 4; 5; 6; 6]%Z.
Proof.
  assert (Heq : JaxBackend.relu6 x =
    match x with
    | IntArr d zs => IntArr d (map (fun z => Z.min (Z.max z 0) 6) zs)
    | FloatArr d fs => FloatArr d (map (fun f => jnp_minimum (jnp_maximum f 0) 6) fs)
    end).
  { destruct x as [d zs | d fs]; unfold JaxBackend.relu6; cbn [JaxBackend.jax_nn_relu6 arr_dtype].
    - destruct Hwf as [Hd Hr]; rewrite astype_int_same by exact Hd.
      f_equal; rewrite map_map; apply map_ext_in; intros z Hz.
      apply int_wrap_in_range, in_range_relu6.
      rewrite Forall_forall in Hr; apply Hr, Hz.
    - apply astype_float_same; exact Hwf. }
  split; [|split; [exact Heq | vm_compute; reflexivity]].
  rewrite Heq; destruct x; reflexivity.
Qed.

(** An instance of C7 at the array of the spec. *)
Lemma relu6_clips_to_0_6_witness :
  wf_arr (IntArr int32 [-1; 0; 1; 2; 3; 4; 5; 6; 7]%Z) /\
  JaxBackend.relu6 (IntArr int32 [-1; 0; 1; 2; 3; 4; 5; 6; 7]%Z) =
    IntArr int32 [0; 0; 1; 2; 3; 4; 5; 6; 6]%Z.
Proof.
  assert (Hwf : wf_arr (IntArr int32 [-1; 0; 1; 2; 3; 4; 5; 6; 7]%Z)).
  { split; [reflexivity|]; repeat constructor; cbn; lia. }
  split; [exact Hwf|].
  destruct (relu6_clips_to_0_6 _ Hwf) as (_ & H & _); rewrite H; reflexivity.
Defined.

(** ** The jax frontend [leaky_relu] *)

Lemma astype_dtype a d : arr_dtype (astype a d) = d.
Proof.
  unfold astype; destruct (is_float_name d); [reflexivity|].
  destruct d, a; reflexivity.
Qed.

Lemma type_conversion_64_float x :
  is_float_name (arr_dtype (JaxFrontend._type_conversion_64 x)) = true.
Proof.
  unfold JaxFrontend._type_conversion_64.
  destruct (is_float_name (arr_dtype x)) eqn:E; rewrite astype_dtype; [exact E | reflexivity].
Qed.

(** C8. The frontend [leaky_relu] has the signature
    [leaky_relu(x, negative_slope=0.01)]: called with [x] alone it binds
    [negative_slope] to 0.01, and called positionally or by keyword it binds
    the given slope; every call converts [x] with [_type_conversion_64] (a float
    dtype is kept, any other dtype becomes float64, so the result is always a
    float dtype) before delegating to the unified [leaky_relu] with
    [alpha=negative_slope]. *)
Theorem frontend_leaky_relu_signature_and_conversion :
  JaxFrontend.leaky_relu_signature =
    [ {| JaxFrontend.pname := "x"; JaxFrontend.pdefault := None |};
      {| JaxFrontend.pname := "negative_slope";
         JaxFrontend.pdefault := Some (JaxFrontend.VFloat 0.01%float) |} ] /\
  (forall x, JaxFrontend.bind_args JaxFrontend.leaky_relu_signature [JaxFrontend.VArr x] [] =
             Some [JaxFrontend.VArr x; JaxFrontend.VFloat 0.01%float]) /\
  (forall x, JaxFrontend.call_leaky_relu [JaxFrontend.VArr x] [] =
             Some (Ivy.leaky_relu (JaxFrontend._type_conversion_64 x) 0.01%float)) /\
  (forall x ns, JaxFrontend.call_leaky_relu [JaxFrontend.VArr x; JaxFrontend.VFloat ns] [] =
             Some (Ivy.leaky_relu (JaxFrontend._type_conversion_64 x) ns)) /\
  (forall x ns, JaxFrontend.call_leaky_relu [JaxFrontend.VArr x]
                  [("negative_slope", JaxFrontend.VFloat ns)] =
             Some (Ivy.leaky_relu (JaxFrontend._type_conversion_64 x) ns)) /\
  (forall x, is_float_name (arr_dtype (JaxFrontend._type_conversion_64 x)) = true) /\
  (forall x, is_float_name (arr_dtype x) = false ->
             arr_dtype (JaxFrontend._type_conversion_64 x) = float64) /\
  (forall x, wf_arr x -> is_float_name (arr_dtype x) = true ->
             JaxFrontend._type_conversion_64 x = x).
Proof.
  split; [reflexivity|].
  split; [intros x; reflexivity|].
  split; [intros x; reflexivity|].
  split; [intros x ns; reflexivity|].
  split; [intros x ns; reflexivity|].
  split; [exact type_conversion_64_float|].
  split.
  - intros x Hx; unfold JaxFrontend._type_conversion_64; rewrite Hx; apply astype_dtype.
  - intros [d zs | d fs] Hwf Hf; cbn in Hf.
    + destruct Hwf as [Hd _]; congruence.
    + unfold JaxFrontend._type_conversion_64; cbn [arr_dtype]; rewrite Hf.
      apply astype_float_same; exact Hf.
Qed.

(** ** [prelu] of the unified surface *)

Lemma prelu_broadcast_failure xs ss :
  Ivy.broadcast xs ss = None ->
  Ivy.prelu xs (Ivy.SArr ss) =
    Ivy.Raise (Ivy.TypeError "catching classes that do not inherit from BaseException is not allowed").
Proof. intros H; unfold Ivy.prelu, Ivy.where_mul; rewrite H; reflexivity. Qed.

(** C3 (code bug). Whenever [x * slope] does not broadcast, evaluating the
    [except] clause of [prelu] raises [TypeError] (it names an [IvyError]
    instance, not a class), so the unidirectional-broadcast fallback is never
    attempted and no [IvyError] is re-raised. At x of shape (3, 2) and slope of
    shape (3,), where the documented fallback (slope reshaped to (3, 1)) would
    broadcast to (3, 2), [prelu] raises [TypeError]; the fallback as written
    would fail as well, since it reshapes the slope to the whole of [x.shape]. *)
Theorem prelu_except_clause_raises_TypeError :
  (forall xs ss, Ivy.broadcast xs ss = None ->
     Ivy.prelu xs (Ivy.SArr ss) =
       Ivy.Raise (Ivy.TypeError "catching classes that do not inherit from BaseException is not allowed")) /\
  Ivy.prelu [3; 2]%nat (Ivy.SArr [3]%nat) =
    Ivy.Raise (Ivy.TypeError "catching classes that do not inherit from BaseException is not allowed") /\
  Ivy.where_mul [3; 2]%nat [3; 1]%nat = Ivy.Ok [3; 2]%nat /\
  Ivy.prelu_fallback [3; 2]%nat [3]%nat Ivy.BroadcastError = Ivy.Raise Ivy.ReshapeError.
Proof.
  split; [exact prelu_broadcast_failure|].
  split; [apply prelu_broadcast_failure; reflexivity|].
  split; reflexivity.
Qed.

(** ** The decorator stacks of the unified surface *)

Lemma map_Enter_inj l1 l2 : map Ivy.Enter l1 = map Ivy.Enter l2 -> l1 = l2.
Proof.
  revert l2; induction l1 as [|a l1 IH]; intros [|b l2] H; try discriminate; [reflexivity|].
  injection H as -> H; f_equal; apply IH, H.
Qed.

Lemma wrap_inj P Q o : Ivy.wrap P o = Ivy.wrap Q o -> P = Q.
Proof. unfold Ivy.wrap; intros H; apply app_inv_tail in H; apply map_Enter_inj, H. Qed.

(** C4 (counterexample). No single decorator pipeline wraps every op: the
    wrapped [logit] and the wrapped [relu6] are not the same pipeline around
    their backend calls. *)
Lemma no_common_decorator_pipeline :
  ~ (exists P, forall o, Ivy.wrapped o = Ivy.wrap P o).
Proof.
  intros [P HP].
  pose proof (wrap_inj _ _ _ (HP Ivy.op_logit)) as H1.
  pose proof (wrap_inj _ _ _ (HP Ivy.op_relu6)) as H2.
  rewrite <- H2 in H1; discriminate H1.
Qed.

(** C4 (amended). Each op is its own decorator list (outermost first) around
    its backend call, and four different orders occur:
    A = out, nestable, native, exceptions, array-like (logit, prelu,
    batch_norm, glu); B = native, out, nestable, exceptions, array-like
    (thresholded_relu); C = B then array-function (relu6, softplus, softsign,
    silu, hard_silu, leaky_relu, elu, celu); D = integer-to-float then C
    (sigmoid, hard_sigmoid, selu, hard_tanh, log_sigmoid). A and B hold the
    same behaviours in different orders. *)
Theorem decorator_orders_per_op :
  let A := [Ivy.handle_out_argument; Ivy.handle_nestable; Ivy.to_native_arrays_and_back;
            Ivy.handle_exceptions; Ivy.handle_array_like_without_promotion] in
  let B := [Ivy.to_native_arrays_and_back; Ivy.handle_out_argument; Ivy.handle_nestable;
            Ivy.handle_exceptions; Ivy.handle_array_like_without_promotion] in
  let C := app B [Ivy.handle_array_function] in
  let D := Ivy.integer_arrays_to_float :: C in
  (forall o, Ivy.wrapped o = Ivy.wrap (Ivy.decorators o) o) /\
  (forall o, Ivy.decorators o = A \/ Ivy.decorators o = B \/
             Ivy.decorators o = C \/ Ivy.decorators o = D) /\
  (forall o, In o [Ivy.op_logit; Ivy.op_prelu; Ivy.op_batch_norm; Ivy.op_glu] ->
             Ivy.decorators o = A) /\
  Ivy.decorators Ivy.op_thresholded_relu = B /\
  (forall o, In o [Ivy.op_relu6; Ivy.op_softplus; Ivy.op_softsign; Ivy.op_silu;
                   Ivy.op_hard_silu; Ivy.op_leaky_relu; Ivy.op_elu; Ivy.op_celu] ->
             Ivy.decorators o = C) /\
  (forall o, In o [Ivy.op_sigmoid; Ivy.op_hard_sigmoid; Ivy.op_selu; Ivy.op_hard_tanh;
                   Ivy.op_log_sigmoid] ->
             Ivy.decorators o = D) /\
  Permutation A B /\ A <> B /\ B <> C /\ C <> D /\ A <> C /\ A <> D /\ B <> D.
Proof.
  intros A B C D.
  split; [reflexivity|].
  split; [intros []; cbn; subst A B C D; cbn; tauto|].
  split; [intros o Ho; repeat destruct Ho as [<- | Ho]; solve [reflexivity | contradiction]|].
  split; [reflexivity|].
  split; [intros o Ho; repeat destruct Ho as [<- | Ho]; solve [reflexivity | contradiction]|].
  split; [intros o Ho; repeat destruct Ho as [<- | Ho]; solve [reflexivity | contradiction]|].
  split.
  - subst A B; eapply perm_trans; [apply perm_skip, perm_swap | apply perm_swap].
  - repeat split; subst A B C D; discriminate.
Qed.

(** C6 (code bug). [sigmoid] carries [integer_arrays_to_float], so an integer
    input reaches its backend as a float array; [logit] does not carry it, so an
    int32 input reaches [current_backend(x).logit] as int32, unpromoted. *)
Theorem logit_integer_input_not_promoted :
  ~ In Ivy.integer_arrays_to_float (Ivy.decorators Ivy.op_logit) /\
  In Ivy.integer_arrays_to_float (Ivy.decorators Ivy.op_sigmoid) /\
  (forall t, Ivy.backend_input_dtype Ivy.op_logit t = t) /\
  (forall t, is_int_dtype t = true -> Ivy.backend_input_dtype Ivy.op_sigmoid t = float32) /\
  Ivy.backend_input_dtype Ivy.op_logit int32 = int32 /\
  is_float_name (Ivy.backend_input_dtype Ivy.op_logit int32) = false.
Proof.
  split; [cbn; intuition discriminate|].
  split; [cbn; left; reflexivity|].
  split; [intros []; reflexivity|].
  split; [intros [] H; try discriminate; reflexivity|].
  split; reflexivity.
Qed.

(** ** [batch_norm] of the jax backend *)

Section BatchNormFacts.
Import JaxBackendR.
Open Scope R_scope.

(** C9. With [training=True], [batch_norm] does not depend on the supplied
    [mean] and [variance]: its result is the [training=False] result at the
    per-channel mean and population variance of [x] over the batch axis and
    every spatial axis (all axes but axis 1). With [training=False] the supplied
    statistics are used: the same one-element input normalised with mean 0 and
    with mean 1 gives different results. *)
Theorem batch_norm_training_ignores_supplied_stats :
  (forall x m1 v1 m2 v2 scale offset eps,
     batch_norm x m1 v1 scale offset true eps = batch_norm x m2 v2 scale offset true eps /\
     batch_norm x m1 v1 scale offset true eps =
       batch_norm x (chan_mean x) (chan_var x) scale offset false eps) /\
  (forall x, chan_mean x =
     map (fun c => jnp_mean (flat_map (fun b => nth c b []) x)) (seq 0 (num_channels x)) /\
     chan_var x =
     map (fun c => jnp_var (flat_map (fun b => nth c b []) x)) (seq 0 (num_channels x))) /\
  batch_norm [[[0]]] [0] [1] None None false 0 <> batch_norm [[[0]]] [1] [1] None None false 0.
Proof.
  split; [intros; split; reflexivity|].
  split; [intros; split; reflexivity|].
  cbv [batch_norm num_channels bcast apply_affine mapi_from]; cbn.
  rewrite Rplus_0_r, sqrt_1.
  intros H; injection H as H; lra.
Qed.

End BatchNormFacts.

(** ** [softplus] of the jax backend *)

Section SoftplusFacts.
Import JaxBackendR.
Open Scope R_scope.

Lemma ztrunc_IZR z : ztrunc (IZR z) = z.
Proof.
  unfold ztrunc; destruct (Rle_dec 0 (IZR z)).
  - symmetry; apply Int_part_spec; lra.
  - rewrite <- opp_IZR.
    rewrite <- (Int_part_spec (IZR (- z)) (- z)) by lra; lia.
Qed.

Lemma rcast_integral d z : in_range d z -> rcast d (IZR z) = IZR z.
Proof.
  intros Hr; unfold rcast; destruct (is_float_name d); [reflexivity|].
  rewrite ztrunc_IZR, int_wrap_in_range by exact Hr; reflexivity.
Qed.




End SoftplusFacts.

(* ========================================================================= *)
(** * Further properties of the frontend helpers and the backend kernels *)

(** ** Dtype conversions of the jax frontend *)

Lemma astype_float_shape a d :
  is_float_name d = true -> astype a d = FloatArr d (arr_floats a).
Proof. intros Hd; unfold astype; rewrite Hd; reflexivity. Qed.

(** On the bool, integer and float dtypes, [_type_conversion] always yields a
    float dtype: a float dtype is kept, int64 and uint64 (the names ending in
    "64") become float64, bool and the other integer dtypes become float32; a
    well-formed float array is returned unchanged. (Complex dtypes are outside
    [dtype]; by the same name test complex64 would become float64.) *)
Theorem type_conversion_float_by_width :
  forall x,
    is_float_name (arr_dtype (JaxFrontend._type_conversion x)) = true /\
    (is_float_name (arr_dtype x) = true ->
       arr_dtype (JaxFrontend._type_conversion x) = arr_dtype x) /\
    (arr_dtype x = int64 \/ arr_dtype x = uint64 ->
       arr_dtype (JaxFrontend._type_conversion x) = float64) /\
    (is_float_name (arr_dtype x) = false -> arr_dtype x <> int64 -> arr_dtype x <> uint64 ->
       arr_dtype (JaxFrontend._type_conversion x) = float32) /\
    (wf_arr x -> is_float_name (arr_dtype x) = true -> JaxFrontend._type_conversion x = x).
Proof.
  intros x; unfold JaxFrontend._type_conversion; rewrite !astype_dtype.
  repeat split.
  - destruct (arr_dtype x); reflexivity.
  - destruct (arr_dtype x); cbn; congruence.
  - intros [-> | ->]; reflexivity.
  - destruct (arr_dtype x); cbn; congruence.
  - destruct x as [d zs | d fs]; cbn; intros Hwf Hf.
    + destruct Hwf; congruence.
    + destruct d; try discriminate Hf; reflexivity.
Qed.

(** Both frontend conversions are idempotent: converting an already converted
    array changes nothing. *)
Theorem type_conversions_idempotent :
  forall x,
    JaxFrontend._type_conversion_64 (JaxFrontend._type_conversion_64 x) =
      JaxFrontend._type_conversion_64 x /\
    JaxFrontend._type_conversion (JaxFrontend._type_conversion x) =
      JaxFrontend._type_conversion x.
Proof.
  intros x.
  assert (Hfix : forall d fs, is_float_name d = true ->
            JaxFrontend._type_conversion_64 (FloatArr d fs) = FloatArr d fs /\
            JaxFrontend._type_conversion (FloatArr d fs) = FloatArr d fs).
  { intros d fs Hd; unfold JaxFrontend._type_conversion_64, JaxFrontend._type_conversion;
      cbn [arr_dtype]; rewrite Hd; split; [apply astype_float_same, Hd|].
    destruct d; try discriminate Hd; reflexivity. }
  split.
  - assert (Hs : exists d fs, JaxFrontend._type_conversion_64 x = FloatArr d fs /\
                              is_float_name d = true).
    { unfold JaxFrontend._type_conversion_64.
      destruct (is_float_name (arr_dtype x)) eqn:E.
      + exists (arr_dtype x), (arr_floats x); split; [apply astype_float_shape|]; exact E.
      + exists float64, (arr_floats x); split; [apply astype_float_shape|]; reflexivity. }
    destruct Hs as (d & fs & -> & Hd); apply Hfix, Hd.
  - assert (Hs : exists d fs, JaxFrontend._type_conversion x = FloatArr d fs /\
                              is_float_name d = true).
    { unfold JaxFrontend._type_conversion.
      assert (Hf : is_float_name (JaxFrontend._type_conversion_dtype (arr_dtype x)) = true)
        by (destruct (arr_dtype x); reflexivity).
      eexists _, _; split; [apply astype_float_shape, Hf | exact Hf]. }
    destruct Hs as (d & fs & -> & Hd); apply Hfix, Hd.
Qed.

(** [_batch_promotion] never returns an integer or bool dtype of its own: the
    result is float64, float32, float16, bfloat16 or the given default. *)
Theorem batch_promotion_result_range :
  forall args dflt,
    In (JaxFrontend._batch_promotion args dflt) [float64; float32; float16; bfloat16; dflt].
Proof.
  intros args dflt; unfold JaxFrontend._batch_promotion.
  repeat match goal with |- context [if ?b then _ else _] => destruct b end; cbn; tauto.
Qed.

(** ** Axis handling of the jax frontend *)

(** [_canonicalize_axis axis ndim] fails exactly when [axis] is outside
    [[-ndim, ndim)]; otherwise it returns the axis in [[0, ndim)] (adding
    [ndim] to a negative one), and canonicalising that again changes nothing. *)
Theorem canonicalize_axis_bounds :
  forall axis ndim,
    (JaxFrontend._canonicalize_axis axis ndim = None <-> ~ (- ndim <= axis < ndim)%Z) /\
    (forall c, JaxFrontend._canonicalize_axis axis ndim = Some c ->
       (0 <= c < ndim)%Z /\ (c = axis \/ c = axis + ndim)%Z /\
       JaxFrontend._canonicalize_axis c ndim = Some c).
Proof.
  intros axis ndim; unfold JaxFrontend._canonicalize_axis.
  destruct (- ndim <=? axis)%Z eqn:E1, (axis <? ndim)%Z eqn:E2;
    rewrite ?Z.leb_le, ?Z.leb_gt, ?Z.ltb_lt, ?Z.ltb_ge in *; cbn.
  - split; [split; [discriminate | lia]|].
    intros c Hc; injection Hc as <-.
    destruct (axis <? 0)%Z eqn:E3; rewrite ?Z.ltb_lt, ?Z.ltb_ge in E3.
    + split; [lia|]; split; [lia|].
      replace ((- ndim <=? axis + ndim)%Z && (axis + ndim <? ndim)%Z) with true
        by (symmetry; apply andb_true_intro; split; [apply Z.leb_le | apply Z.ltb_lt]; lia).
      cbn; replace (axis + ndim <? 0)%Z with false by (symmetry; apply Z.ltb_ge; lia).
      reflexivity.
    + split; [lia|]; split; [lia|].
      replace ((- ndim <=? axis)%Z && (axis <? ndim)%Z) with true
        by (symmetry; apply andb_true_intro; split; [apply Z.leb_le | apply Z.ltb_lt]; lia).
      cbn; replace (axis <? 0)%Z with false by (symmetry; apply Z.ltb_ge; lia).
      reflexivity.
  - split; [split; [intros _; lia | reflexivity]| discriminate].
  - split; [split; [intros _; lia | reflexivity]| discriminate].
  - split; [split; [intros _; lia | reflexivity]| discriminate].
Qed.

Lemma canon_val_spec a ndim c :
  JaxFrontend.canon_val a ndim = Some c ->
  (0 <= JaxFrontend.ax c < ndim)%Z /\
  (JaxFrontend.ax c = JaxFrontend.ax a \/ JaxFrontend.ax c = JaxFrontend.ax a + ndim)%Z /\
  JaxFrontend.ax_is_int c = JaxFrontend.ax_is_int a.
Proof.
  unfold JaxFrontend.canon_val; intros H.
  destruct (JaxFrontend._canonicalize_axis (JaxFrontend.ax a) ndim) as [c'|] eqn:E;
    cbn in H; [|discriminate].
  injection H as <-; cbn.
  destruct (proj2 (canonicalize_axis_bounds _ _) _ E) as (Hb & Hc & _).
  split; [exact Hb | split; [exact Hc | reflexivity]].
Qed.

Lemma canon_all_spec l ndim canon :
  JaxFrontend.canon_all l ndim = Some canon ->
  Forall2 (fun a c => JaxFrontend.canon_val a ndim = Some c) l canon.
Proof.
  revert canon; induction l as [|a l IH]; intros canon H; cbn in H.
  - injection H as <-; constructor.
  - destruct (JaxFrontend.canon_val a ndim) as [c|] eqn:Ec; [|discriminate].
    destruct (JaxFrontend.canon_all l ndim) as [cs|] eqn:Ecs; cbn in H; [|discriminate].
    injection H as <-; constructor; [exact Ec | apply IH; reflexivity].
Qed.

Lemma NoDup_of_nodup_length (l : list Z) :
  List.length l = List.length (nodup Z.eq_dec l) -> NoDup l.
Proof.
  intros Hl.
  assert (Hincl : incl (nodup Z.eq_dec l) l) by (intros a Ha; apply nodup_In in Ha; exact Ha).
  apply (NoDup_incl_NoDup (l:=nodup Z.eq_dec l)); [apply NoDup_nodup | lia | exact Hincl].
Qed.





(** [_reduction_dims] rejects any axis list holding, at any two positions,
    two axes that name the same dimension: equal values, or an axis [a] and
    its negative alias [a - ndims]. Either one of them is out of bounds, or
    both canonicalise to the same axis and the duplicate check fails. *)
Theorem reduction_dims_rejects_alias :
  forall ndims l1 l2 l3 a b,
    (JaxFrontend.ax a = JaxFrontend.ax b \/
     JaxFrontend.ax a = JaxFrontend.ax b + Z.of_nat ndims \/
     JaxFrontend.ax b = JaxFrontend.ax a + Z.of_nat ndims)%Z ->
    JaxFrontend._reduction_dims ndims (JaxFrontend.AxisSeq (l1 ++ a :: l2 ++ b :: l3)) = None.
Proof.
  intros ndims l1 l2 l3 a b Hab; unfold JaxFrontend._reduction_dims; cbn [JaxFrontend.axis_items].
  destruct (JaxFrontend.canon_all _ _) as [cs|] eqn:E; [|reflexivity].
  apply canon_all_spec in E.
  apply Forall2_app_inv_l in E; destruct E as (m1 & m2 & _ & E & ->).
  inversion E as [|? ca ? m2' Hca E']; subst.
  apply Forall2_app_inv_l in E'; destruct E' as (n1 & n2 & _ & E'' & ->).
  inversion E'' as [|? cb ? n3 Hcb _]; subst.
  destruct (canon_val_spec _ _ _ Hca) as (Ha & Ha' & _).
  destruct (canon_val_spec _ _ _ Hcb) as (Hb & Hb' & _).
  assert (Heq : JaxFrontend.ax ca = JaxFrontend.ax cb) by lia.
  destruct (Nat.eqb _ _) eqn:El; [|reflexivity].
  apply Nat.eqb_eq, NoDup_of_nodup_length in El.
  rewrite map_app in El; apply NoDup_app_remove_l in El.
  cbn [map] in El; rewrite map_app in El; cbn [map] in El.
  inversion El as [|? ? Hnin _]; exfalso; apply Hnin.
  rewrite Heq; apply in_or_app; right; left; reflexivity.
Qed.

(** An instance of [reduction_dims_rejects_alias]: [axis=(1, 0, -3)] on a 3-d
    array, where [-3] is an alias of [0]. *)
Lemma reduction_dims_rejects_alias_witness :
  (JaxFrontend.ax {| JaxFrontend.ax := 0; JaxFrontend.ax_is_int := true |} =
     JaxFrontend.ax {| JaxFrontend.ax := -3; JaxFrontend.ax_is_int := true |} + Z.of_nat 3)%Z /\
  JaxFrontend._reduction_dims 3
    (JaxFrontend.AxisSeq ([{| JaxFrontend.ax := 1; JaxFrontend.ax_is_int := true |}] ++
                          {| JaxFrontend.ax := 0; JaxFrontend.ax_is_int := true |} ::
                          [] ++ {| JaxFrontend.ax := -3; JaxFrontend.ax_is_int := true |} :: []))
    = None.
Proof.
  split; [reflexivity|].
  apply (reduction_dims_rejects_alias 3 [{| JaxFrontend.ax := 1; JaxFrontend.ax_is_int := true |}] [] []
           {| JaxFrontend.ax := 0; JaxFrontend.ax_is_int := true |}
           {| JaxFrontend.ax := -3; JaxFrontend.ax_is_int := true |}).
  right; left; reflexivity.
Defined.

(** ** [thresholded_relu], [softplus] and [batch_norm] of the jax backend *)

Section KernelFacts.
Import JaxBackendR.
Open Scope R_scope.

Lemma rcast_zero d : rcast d 0 = 0.
Proof.
  apply (rcast_integral d 0%Z).
  destruct d; cbn [in_range]; try exact I; try (left; reflexivity); cbn; lia.
Qed.

Lemma wf_rcast_id x : wf_rarr x -> Forall (fun v => rcast (rdtype x) v = v) (rdata x).
Proof.
  intros Hwf; unfold wf_rarr in Hwf.
  destruct (is_float_name (rdtype x)) eqn:Ef.
  - apply Forall_forall; intros v _; unfold rcast; rewrite Ef; reflexivity.
  - specialize (Hwf eq_refl); rewrite Forall_forall in *; intros v Hin.
    destruct (Hwf v Hin) as [z [-> Hr]]; apply rcast_integral, Hr.
Qed.

(** [thresholded_relu] keeps the dtype, keeps the elements above the
    threshold and zeroes the others; applying it twice with the same
    threshold is applying it once. *)
Theorem thresholded_relu_keep_or_zero (x : rarr) (t : R) (Hwf : wf_rarr x) :
  rdtype (thresholded_relu x t) = rdtype x /\
  rdata (thresholded_relu x t) = map (fun v => if Rlt_dec t v then v else 0) (rdata x) /\
  thresholded_relu (thresholded_relu x t) t = thresholded_relu x t.
Proof.
  assert (Hd : rdata (thresholded_relu x t) = map (fun v => if Rlt_dec t v then v else 0) (rdata x)).
  { unfold thresholded_relu, rastype; cbn [rdata rdtype]; rewrite map_map.
    apply map_ext_Forall; generalize (wf_rcast_id x Hwf); apply Forall_impl.
    intros v Hv; destruct (Rlt_dec t v); [exact Hv | apply rcast_zero]. }
  split; [reflexivity|]; split; [exact Hd|].
  set (g := fun v => if Rlt_dec t v then v else 0) in *.
  assert (Hy : thresholded_relu x t = {| rdtype := rdtype x; rdata := map g (rdata x) |})
    by (rewrite <- Hd; reflexivity).
  rewrite Hy; unfold thresholded_relu at 1; unfold rastype; cbn [rdata rdtype]; f_equal.
  transitivity (map (rcast (rdtype x)) (map g (rdata x))); [|exact Hd].
  f_equal; rewrite map_map; apply map_ext; intros v; unfold g.
  destruct (Rlt_dec t v) as [h|h]; [destruct (Rlt_dec t v) | destruct (Rlt_dec t 0)];
    solve [reflexivity | contradiction].
Qed.

Lemma thresholded_relu_keep_or_zero_witness :
  wf_rarr {| rdtype := float32; rdata := [-1; 2] |} /\
  rdata (thresholded_relu {| rdtype := float32; rdata := [-1; 2] |} 0) =
    map (fun v => if Rlt_dec 0 v then v else 0) [-1; 2].
Proof.
  assert (Hwf : wf_rarr {| rdtype := float32; rdata := [-1; 2] |}) by (intros H; discriminate H).
  split; [exact Hwf|].
  apply (thresholded_relu_keep_or_zero {| rdtype := float32; rdata := [-1; 2] |} 0 Hwf).
Defined.








End KernelFacts.

(** ** [prelu] shapes *)

Lemma broadcast_rev_refl a : Ivy.broadcast_rev a a = Some a.
Proof. induction a as [|x a IH]; [reflexivity|]; cbn; rewrite IH, Nat.eqb_refl; reflexivity. Qed.

Lemma broadcast_rev_absorb a b r :
  Ivy.broadcast_rev a b = Some r -> Ivy.broadcast_rev a r = Some r.
Proof.
  revert b r; induction a as [|x a IH]; intros b r H.
  - destruct r; reflexivity.
  - destruct b as [|y b]; cbn in H.
    + injection H as <-; apply broadcast_rev_refl.
    + destruct (Ivy.broadcast_rev a b) as [r'|] eqn:E; [|discriminate].
      specialize (IH _ _ E).
      destruct (Nat.eqb x y) eqn:Exy;
        [injection H as <-; cbn; rewrite IH, Nat.eqb_refl; reflexivity|].
      destruct (Nat.eqb x 1) eqn:Ex1.
      * injection H as <-; cbn; rewrite IH, Exy, Ex1; reflexivity.
      * destruct (Nat.eqb y 1); [|discriminate].
        injection H as <-; cbn; rewrite IH, Nat.eqb_refl; reflexivity.
Qed.

Lemma broadcast_absorb a b r : Ivy.broadcast a b = Some r -> Ivy.broadcast a r = Some r.
Proof.
  unfold Ivy.broadcast; intros H.
  destruct (Ivy.broadcast_rev (rev a) (rev b)) as [r'|] eqn:E; cbn in H; [|discriminate].
  injection H as <-; rewrite rev_involutive, (broadcast_rev_absorb _ _ _ E); reflexivity.
Qed.

(** [prelu] with an array [slope] returns exactly when [x] and [slope]
    broadcast, with the broadcast shape: its [except] branch never produces a
    result. *)
Theorem prelu_ok_iff_broadcast :
  forall xs ss r, Ivy.prelu xs (Ivy.SArr ss) = Ivy.Ok r <-> Ivy.broadcast xs ss = Some r.
Proof.
  intros xs ss r; unfold Ivy.prelu, Ivy.where_mul.
  destruct (Ivy.broadcast xs ss) as [p|] eqn:E.
  - rewrite (broadcast_absorb _ _ _ E); split; congruence.
  - cbn; split; discriminate.
Qed.

(** ** The frontend [relu6], [sigmoid], [hard_sigmoid] and [softplus] *)

Lemma backend_relu6_eq x :
  wf_arr x ->
  JaxBackend.relu6 x =
    match x with
    | IntArr d zs => IntArr d (map (fun z => Z.min (Z.max z 0) 6) zs)
    | FloatArr d fs => FloatArr d (map (fun f => jnp_minimum (jnp_maximum f 0) 6) fs)
    end.
Proof.
  intros Hwf; destruct x as [d zs | d fs]; unfold JaxBackend.relu6;
    cbn [JaxBackend.jax_nn_relu6 arr_dtype].
  - destruct Hwf as [Hd Hr]; rewrite astype_int_same by exact Hd.
    f_equal; rewrite map_map; apply map_ext_in; intros z Hz.
    apply int_wrap_in_range, in_range_relu6.
    rewrite Forall_forall in Hr; apply Hr, Hz.
  - apply astype_float_same; exact Hwf.
Qed.

(** The frontend [relu6] clips like the backend and then converts: an
    integer array comes back as float64 holding the clipped integers, a float
    array keeps its dtype. *)
Theorem frontend_relu6_clip_then_float64 (x : arr) (Hwf : wf_arr x) :
  JaxFrontend.relu6 x =
    match x with
    | IntArr d zs => FloatArr float64 (map (fun z => z_to_float (Z.min (Z.max z 0) 6)) zs)
    | FloatArr d fs => FloatArr d (map (fun f => jnp_minimum (jnp_maximum f 0) 6) fs)
    end.
Proof.
  unfold JaxFrontend.relu6; rewrite (backend_relu6_eq _ Hwf).
  destruct x as [d zs | d fs]; unfold JaxFrontend._type_conversion_64; cbn [arr_dtype].
  - destruct Hwf as [Hd _]; rewrite Hd, (astype_float_shape _ float64 eq_refl).
    cbn [arr_floats]; rewrite map_map; reflexivity.
  - cbn in Hwf; rewrite Hwf; apply astype_float_same, Hwf.
Qed.

Lemma frontend_relu6_clip_then_float64_witness :
  wf_arr (IntArr int8 [-3; 4; 9]%Z) /\
  JaxFrontend.relu6 (IntArr int8 [-3; 4; 9]%Z) =
    FloatArr float64 (map (fun z => z_to_float (Z.min (Z.max z 0) 6)) [-3; 4; 9]%Z).
Proof.
  assert (Hwf : wf_arr (IntArr int8 [-3; 4; 9]%Z)).
  { split; [reflexivity|]; repeat constructor; cbn; lia. }
  split; [exact Hwf|]; apply (frontend_relu6_clip_then_float64 _ Hwf).
Defined.

(** The frontends [sigmoid], [hard_sigmoid] and [softplus] return the dtype
    chosen by [_type_conversion] whatever the unified op returns: float64 for
    int64 and uint64 inputs, float32 for the other integer inputs. So on an
    int32 array they return float32 where the frontend [relu6] returns
    float64. *)
Theorem frontend_converted_ops_dtype :
  (forall k x,
     arr_dtype (JaxFrontend.sigmoid k x) = JaxFrontend._type_conversion_dtype (arr_dtype x) /\
     arr_dtype (JaxFrontend.hard_sigmoid k x) = JaxFrontend._type_conversion_dtype (arr_dtype x) /\
     arr_dtype (JaxFrontend.softplus k x) = JaxFrontend._type_conversion_dtype (arr_dtype x)) /\
  (forall k zs,
     arr_dtype (JaxFrontend.sigmoid k (IntArr int32 zs)) = float32 /\
     arr_dtype (JaxFrontend.relu6 (IntArr int32 zs)) = float64).
Proof.
  assert (H : forall k x, arr_dtype (JaxFrontend.convert_apply_cast k x) =
                          JaxFrontend._type_conversion_dtype (arr_dtype x)).
  { intros k x; unfold JaxFrontend.convert_apply_cast, JaxFrontend._type_conversion.
    rewrite !astype_dtype; reflexivity. }
  split; [intros k x; split; [|split]; apply H|].
  intros k zs; split; [apply H|].
  unfold JaxFrontend.relu6, JaxFrontend._type_conversion_64, JaxBackend.relu6.
  rewrite astype_dtype; cbn [arr_dtype is_float_name]; cbn; rewrite ?astype_dtype; reflexivity.
Qed.

